(** * Invoice form: item aggregation, totals, barcode lookup and submission

    A shallow embedding of [client/src/components/forms/invoice-form.tsx].

    - JavaScript strings are sequences of UTF-16 code units ([jsstring]).
    - JavaScript numbers are IEEE 754 binary64 values ([float]).
    - React state ([useState] cells and the react-hook-form values) is a
      record that every handler receives and returns; what a handler asks of
      its environment (toasts, cache invalidation, the mutation, [onClose])
      is returned next to the new state as a list of [Effect]s, in program
      order.
    - Built-ins whose result the component only passes along ([parseFloat],
      [Number.prototype.toString], [crypto.randomUUID]) are parameters.
    - Events are handled one at a time: a handler reads the state of the
      render it was created in, which is the state the previous handler
      left. *)

From Stdlib Require Import List Bool NArith Arith Lia String Ascii PrimFloat.
From Stdlib Require DecimalString.
Import ListNotations.

(* ------------------------------------------------------------------ *)
(** ** Strings *)

Module JsString.

(** A string value: its UTF-16 code units. *)
Definition jsstring : Type := list N.

(** An ASCII literal as a string value. *)
Definition lit (s : string) : jsstring :=
  List.map N_of_ascii (list_ascii_of_string s).

(** [a === b] on strings. *)
Fixpoint eqb (a b : jsstring) : bool :=
  match a, b with
  | [], [] => true
  | x :: a', y :: b' => N.eqb x y && eqb a' b'
  | _, _ => false
  end.

(** [!!s] : only the empty string is falsy. *)
Definition truthy (s : jsstring) : bool :=
  match s with [] => false | _ :: _ => true end.

(** [a || b] on strings. *)
Definition or (a b : jsstring) : jsstring :=
  if truthy a then a else b.

(** ECMAScript WhiteSpace and LineTerminator code points, the ones
    [String.prototype.trim] strips. *)
Definition is_white_space (c : N) : bool :=
  (N.eqb c 9 || N.eqb c 10 || N.eqb c 11 || N.eqb c 12 || N.eqb c 13
   || N.eqb c 32 || N.eqb c 160 || N.eqb c 5760
   || (N.leb 8192 c && N.leb c 8202)
   || N.eqb c 8232 || N.eqb c 8233 || N.eqb c 8239 || N.eqb c 8287
   || N.eqb c 12288 || N.eqb c 65279)%bool.

Fixpoint trimStart (s : jsstring) : jsstring :=
  match s with
  | [] => []
  | c :: s' => if is_white_space c then trimStart s' else s
  end.

Definition trimEnd (s : jsstring) : jsstring :=
  rev (trimStart (rev s)).

(** [s.trim()] *)
Definition trim (s : jsstring) : jsstring :=
  trimEnd (trimStart s).

End JsString.

Import JsString.

(* ------------------------------------------------------------------ *)
(** ** Data *)

(** [Product] and [Customer] come from the shared schema; the component
    reads these fields only. *)
Module Product.
Record t : Type := mk
  { id : jsstring;
    name : jsstring;
    price : jsstring }.
End Product.

Module Customer.
Record t : Type := mk
  { id : jsstring;
    name : jsstring }.
End Customer.

(** [interface TransactionItem] *)
Module TransactionItem.
Record t : Type := mk
  { id : jsstring;
    transactionId : jsstring;
    productId : jsstring;
    productName : jsstring;
    quantity : float;
    price : float;
    total : float }.
End TransactionItem.

Inductive Currency : Type := TRY | USD.
Inductive PaymentType : Type := cash | credit.

(** The values react-hook-form holds for the registered fields. *)
Record FormValues : Type := mkForm
  { customerName : jsstring;
    discount : jsstring;
    paymentType : PaymentType;
    currency : Currency }.

(** [defaultValues] of [useForm]. *)
Definition defaultValues : FormValues :=
  {| customerName := [];
     discount := lit "0";
     paymentType := cash;
     currency := TRY |}.

(** [InsertTransaction], with the fields the create-transaction endpoint
    takes.  A field that may be [undefined] or [null] is an [option]. *)
Module InsertTransaction.
Record t : Type := mk
  { customerId : option jsstring;
    customerName : option jsstring;
    currency : Currency;
    paymentType : PaymentType;
    discount : jsstring;
    total : jsstring;
    tax : jsstring }.
End InsertTransaction.

(** The [useState] cells of the component and the form values. *)
Record State : Type := mkState
  { items : list TransactionItem.t;
    selectedCustomer : option Customer.t;
    customerSearch : jsstring;
    productSearch : jsstring;
    barcodeInput : jsstring;
    lastScannedBarcode : jsstring;
    form : FormValues }.

Definition initialState : State :=
  {| items := [];
     selectedCustomer := None;
     customerSearch := [];
     productSearch := [];
     barcodeInput := [];
     lastScannedBarcode := [];
     form := defaultValues |}.

Definition setItems (v : list TransactionItem.t) (st : State) : State :=
  {| items := v;
     selectedCustomer := selectedCustomer st;
     customerSearch := customerSearch st;
     productSearch := productSearch st;
     barcodeInput := barcodeInput st;
     lastScannedBarcode := lastScannedBarcode st;
     form := form st |}.

Definition setSelectedCustomer (v : option Customer.t) (st : State) : State :=
  {| items := items st;
     selectedCustomer := v;
     customerSearch := customerSearch st;
     productSearch := productSearch st;
     barcodeInput := barcodeInput st;
     lastScannedBarcode := lastScannedBarcode st;
     form := form st |}.

Definition setBarcodeInput (v : jsstring) (st : State) : State :=
  {| items := items st;
     selectedCustomer := selectedCustomer st;
     customerSearch := customerSearch st;
     productSearch := productSearch st;
     barcodeInput := v;
     lastScannedBarcode := lastScannedBarcode st;
     form := form st |}.

Definition setLastScannedBarcode (v : jsstring) (st : State) : State :=
  {| items := items st;
     selectedCustomer := selectedCustomer st;
     customerSearch := customerSearch st;
     productSearch := productSearch st;
     barcodeInput := barcodeInput st;
     lastScannedBarcode := v;
     form := form st |}.

(** [form.reset()] : back to [defaultValues]. *)
Definition form_reset (st : State) : State :=
  {| items := items st;
     selectedCustomer := selectedCustomer st;
     customerSearch := customerSearch st;
     productSearch := productSearch st;
     barcodeInput := barcodeInput st;
     lastScannedBarcode := lastScannedBarcode st;
     form := defaultValues |}.

(* ------------------------------------------------------------------ *)
(** ** Effects *)

Inductive ToastVariant : Type := default | destructive.

(** The body of the POST to [/api/transactions]. *)
Record Payload : Type := mkPayload
  { transaction : InsertTransaction.t;
    payload_items : list TransactionItem.t }.

Inductive Effect : Type :=
| Toast (title description : jsstring) (variant : ToastVariant)
| Mutate (p : Payload)
| InvalidateQueries (queryKey : jsstring)
| OnClose.

(** Text constants of the component. *)
Local Open Scope N_scope.
Definition txt_error : jsstring := [1582; 1591; 1571].
Definition txt_need_one_product : jsstring :=
  [1610; 1580; 1576; 32; 1573; 1590; 1575; 1601; 1577; 32; 1605; 1606; 1578;
   1580; 32; 1608; 1575; 1581; 1583; 32; 1593; 1604; 1609; 32; 1575; 1604;
   1571; 1602; 1604].
Definition txt_unspecified_customer : jsstring :=
  [1593; 1605; 1610; 1604; 32; 1594; 1610; 1585; 32; 1605; 1581; 1583; 1583].
Definition txt_success : jsstring :=
  [1578; 1605; 32; 1576; 1606; 1580; 1575; 1581].
Definition txt_invoice_created : jsstring :=
  [1578; 1605; 32; 1573; 1606; 1588; 1575; 1569; 32; 1575; 1604; 1601; 1575;
   1578; 1608; 1585; 1577; 32; 1576; 1606; 1580; 1575; 1581].
Definition txt_invoice_failed : jsstring :=
  [1601; 1588; 1604; 32; 1601; 1610; 32; 1573; 1606; 1588; 1575; 1569; 32;
   1575; 1604; 1601; 1575; 1578; 1608; 1585; 1577].
Local Close Scope N_scope.

(* ------------------------------------------------------------------ *)
(** ** The component *)

(** Values of type [string | undefined | null]. *)
Definition truthy_opt (v : option jsstring) : bool :=
  match v with
  | Some s => truthy s
  | None => false
  end.

(** [a || b] on such values. *)
Definition or_opt (a b : option jsstring) : option jsstring :=
  if truthy_opt a then a else b.

(** What [calculateTotals] returns. *)
Module Totals.
Record t : Type := mk
  { subtotal : float;
    discount : float;
    total : float }.
End Totals.

(** What the barcode [useQuery] hands to a render. *)
Record BarcodeQuery : Type := mkBarcodeQuery
  { data : option Product.t;
    isLoading : bool }.

Definition url_transactions : jsstring := lit "/api/transactions".
Definition url_dashboard_metrics : jsstring := lit "/api/dashboard/metrics".

Section Component.

(** The global [parseFloat]. *)
Variable parseFloat : jsstring -> float.

(** [Number.prototype.toString]. *)
Variable toString : float -> jsstring.

Local Open Scope float_scope.

(** [addItem(product)]; [uuid] is what [crypto.randomUUID()] returns if it
    is called. *)
Definition addItem (uuid : jsstring) (product : Product.t) (st : State)
  : State :=
  let existingItem :=
    find (fun item => eqb (TransactionItem.productId item) (Product.id product))
         (items st) in
  match existingItem with
  | Some _ =>
      setItems
        (map (fun item =>
                if eqb (TransactionItem.productId item) (Product.id product)
                then {| TransactionItem.id := TransactionItem.id item;
                        TransactionItem.transactionId :=
                          TransactionItem.transactionId item;
                        TransactionItem.productId :=
                          TransactionItem.productId item;
                        TransactionItem.productName :=
                          TransactionItem.productName item;
                        TransactionItem.quantity :=
                          TransactionItem.quantity item + 1;
                        TransactionItem.price := TransactionItem.price item;
                        TransactionItem.total :=
                          (TransactionItem.quantity item + 1)
                          * TransactionItem.price item |}
                else item)
             (items st))
        st
  | None =>
      let newItem :=
        {| TransactionItem.id := uuid;
           TransactionItem.transactionId := [];
           TransactionItem.productId := Product.id product;
           TransactionItem.productName := Product.name product;
           TransactionItem.quantity := 1;
           TransactionItem.price := parseFloat (Product.price product);
           TransactionItem.total := parseFloat (Product.price product) |} in
      setItems (items st ++ [newItem]) st
  end.

(** The click handler of a line's delete button, for the line [item]. *)
Definition removeItem (item : TransactionItem.t) (st : State) : State :=
  setItems
    (filter (fun i => negb (eqb (TransactionItem.id i) (TransactionItem.id item)))
            (items st))
    st.

(** [handleBarcodeSearch()] *)
Definition handleBarcodeSearch (st : State) : State :=
  if negb (truthy (trim (barcodeInput st))) then st
  else setLastScannedBarcode (trim (barcodeInput st)) st.

(** The barcode query runs for the key [lastScannedBarcode], and only when
    that key is truthy ([enabled: !!lastScannedBarcode]). *)
Definition barcodeLookup (st : State) : option jsstring :=
  if truthy (lastScannedBarcode st) then Some (lastScannedBarcode st)
  else None.

(** The effect that runs when [scannedProduct] changes. *)
Definition autoAdd (uuid : jsstring) (scannedProduct : option Product.t)
           (st : State) : State :=
  match scannedProduct with
  | Some p => setLastScannedBarcode [] (setBarcodeInput [] (addItem uuid p st))
  | None => st
  end.

(** The condition under which the not-found paragraph is rendered. *)
Definition notFoundNotice (q : BarcodeQuery) (st : State) : bool :=
  truthy (lastScannedBarcode st)
  && negb (match data q with Some _ => true | None => false end)
  && negb (isLoading q).

(** [calculateTotals()] *)
Definition calculateTotals (st : State) : Totals.t :=
  let subtotal :=
    fold_left (fun sum item => sum + TransactionItem.total item) (items st) 0 in
  let discount := parseFloat (or (discount (form st)) (lit "0")) in
  let total := subtotal - discount in
  {| Totals.subtotal := subtotal;
     Totals.discount := discount;
     Totals.total := total |}.

(** [onSubmit(data)] *)
Definition onSubmit (data : InsertTransaction.t) (st : State)
  : State * list Effect :=
  if Nat.eqb (List.length (items st)) 0 then
    (st, [Toast txt_error txt_need_one_product destructive])
  else
    let total := Totals.total (calculateTotals st) in
    let transactionData :=
      {| InsertTransaction.customerId :=
           or_opt (option_map Customer.id (selectedCustomer st)) None;
         InsertTransaction.customerName :=
           or_opt (or_opt (option_map Customer.name (selectedCustomer st))
                          (InsertTransaction.customerName data))
                  (Some txt_unspecified_customer);
         InsertTransaction.currency := InsertTransaction.currency data;
         InsertTransaction.paymentType := InsertTransaction.paymentType data;
         InsertTransaction.discount := InsertTransaction.discount data;
         InsertTransaction.total := toString total;
         InsertTransaction.tax := lit "0" |} in
    (st, [Mutate {| transaction := transactionData;
                    payload_items := items st |}]).

(** [createTransactionMutation.onSuccess] *)
Definition onSuccess (st : State) : State * list Effect :=
  (setItems [] (form_reset st),
   [InvalidateQueries url_transactions;
    InvalidateQueries url_dashboard_metrics;
    Toast txt_success txt_invoice_created default;
    OnClose]).

(** [createTransactionMutation.onError] *)
Definition onError (st : State) : State * list Effect :=
  (st, [Toast txt_error txt_invoice_failed destructive]).

(** [onValueChange] of the customer select. *)
Definition selectCustomer (customers : list Customer.t) (value : jsstring)
           (st : State) : State :=
  setSelectedCustomer
    (find (fun c => eqb (Customer.id c) value) customers) st.

(** The operations on the item list that the form offers. *)
Inductive ItemOp : Type :=
| OpAdd (uuid : jsstring) (product : Product.t)
| OpRemove (item : TransactionItem.t).

Definition applyOp (st : State) (op : ItemOp) : State :=
  match op with
  | OpAdd uuid product => addItem uuid product st
  | OpRemove item => removeItem item st
  end.

Definition runOps (ops : list ItemOp) (st : State) : State :=
  fold_left applyOp ops st.

(** The lines of [l] for the product [pid]. *)
Definition linesOf (pid : jsstring) (l : list TransactionItem.t)
  : list TransactionItem.t :=
  filter (fun item => eqb (TransactionItem.productId item) pid) l.

(** The line [addItem] appends for a product that has none. *)
Definition newLine (uuid : jsstring) (product : Product.t)
  : TransactionItem.t :=
  {| TransactionItem.id := uuid;
     TransactionItem.transactionId := [];
     TransactionItem.productId := Product.id product;
     TransactionItem.productName := Product.name product;
     TransactionItem.quantity := 1;
     TransactionItem.price := parseFloat (Product.price product);
     TransactionItem.total := parseFloat (Product.price product) |}.

(** The line [item] once more of its product is added. *)
Definition oneMore (item : TransactionItem.t) : TransactionItem.t :=
  {| TransactionItem.id := TransactionItem.id item;
     TransactionItem.transactionId := TransactionItem.transactionId item;
     TransactionItem.productId := TransactionItem.productId item;
     TransactionItem.productName := TransactionItem.productName item;
     TransactionItem.quantity := TransactionItem.quantity item + 1;
     TransactionItem.price := TransactionItem.price item;
     TransactionItem.total :=
       (TransactionItem.quantity item + 1) * TransactionItem.price item |}.

Definition absent (pid : jsstring) (l : list TransactionItem.t) : Prop :=
  forall item, In item l -> TransactionItem.productId item <> pid.

End Component.

(** The subtotal in the spec's words: the sum of the line totals,
    [t_0 + t_1 + ... + t_(n-1)] added up from the first line on. *)
Fixpoint bigsum (t : nat -> float) (n : nat) : float :=
  match n with
  | O => 0%float
  | S k => (bigsum t k + t k)%float
  end.

Definition lineTotal (l : list TransactionItem.t) (i : nat) : float :=
  match nth_error l i with
  | Some item => TransactionItem.total item
  | None => 0%float
  end.

Definition sumLineTotals (l : list TransactionItem.t) : float :=
  bigsum (lineTotal l) (List.length l).

(** The customer name of a submission in the spec's words: the selected
    customer's name if one is selected, else the typed name if present, else
    the fallback text. *)
Definition specCustomerName (selected : option Customer.t)
           (typed : option jsstring) : jsstring :=
  match selected with
  | Some c => Customer.name c
  | None =>
      match typed with
      | Some n => if truthy n then n else txt_unspecified_customer
      | None => txt_unspecified_customer
      end
  end.

(** No selected customer lends a name: none is selected, or the selected
    one's name is the empty string. *)
Definition noSelectedName (st : State) : Prop :=
  match selectedCustomer st with
  | Some c => Customer.name c = []
  | None => True
  end.

(** No name was typed. *)
Definition noTypedName (data : InsertTransaction.t) : Prop :=
  match InsertTransaction.customerName data with
  | Some n => n = []
  | None => True
  end.

(** One instance of the two built-ins, right on the arguments used in the
    examples below: [parseFloat] on short strings of decimal digits and
    [toString] on the whole numbers below 1000. *)
Module Sample.

Local Open Scope float_scope.

Fixpoint float_of_nat (n : nat) : float :=
  match n with
  | O => 0
  | S k => float_of_nat k + 1
  end.

Definition is_digit (c : N) : bool := (N.leb 48 c && N.leb c 57)%bool.

Fixpoint digits (acc : float) (s : jsstring) : float :=
  match s with
  | [] => acc
  | c :: s' =>
      if is_digit c
      then digits (acc * 10 + float_of_nat (N.to_nat (c - 48))) s'
      else acc
  end.

Definition parseFloat (s : jsstring) : float :=
  match s with
  | c :: _ => if is_digit c then digits 0 s else nan
  | [] => nan
  end.

Fixpoint whole (fuel : nat) (n : nat) (x : float) : option nat :=
  match fuel with
  | O => None
  | S fuel' =>
      if PrimFloat.eqb (float_of_nat n) x then Some n
      else whole fuel' (S n) x
  end.

Definition toString (x : float) : jsstring :=
  match whole 1000 0 x with
  | Some n => lit (DecimalString.NilZero.string_of_uint (Nat.to_uint n))
  | None => lit "NaN"
  end.

Definition apple : Product.t :=
  {| Product.id := lit "p-1"; Product.name := lit "apple";
     Product.price := lit "10" |}.

Definition pear : Product.t :=
  {| Product.id := lit "p-2"; Product.name := lit "pear";
     Product.price := lit "5" |}.

(** Two lines: 2 x 10 and 1 x 5. *)
Definition twoLines : list TransactionItem.t :=
  [ {| TransactionItem.id := lit "a";
       TransactionItem.transactionId := [];
       TransactionItem.productId := lit "p-1";
       TransactionItem.productName := lit "apple";
       TransactionItem.quantity := 2;
       TransactionItem.price := 10;
       TransactionItem.total := 20 |};
    {| TransactionItem.id := lit "b";
       TransactionItem.transactionId := [];
       TransactionItem.productId := lit "p-2";
       TransactionItem.productName := lit "pear";
       TransactionItem.quantity := 1;
       TransactionItem.price := 5;
       TransactionItem.total := 5 |} ].

(** The form with [d] typed into the discount field. *)
Definition withDiscount (d : jsstring) (st : State) : State :=
  {| items := items st;
     selectedCustomer := selectedCustomer st;
     customerSearch := customerSearch st;
     productSearch := productSearch st;
     barcodeInput := barcodeInput st;
     lastScannedBarcode := lastScannedBarcode st;
     form := {| customerName := customerName (form st);
                discount := d;
                paymentType := paymentType (form st);
                currency := currency (form st) |} |}.

(** [apple] after its listed price went up. *)
Definition dearApple : Product.t :=
  {| Product.id := lit "p-1"; Product.name := lit "apple";
     Product.price := lit "12" |}.

Definition soleLine : TransactionItem.t :=
  {| TransactionItem.id := lit "a";
     TransactionItem.transactionId := [];
     TransactionItem.productId := lit "p-1";
     TransactionItem.productName := lit "apple";
     TransactionItem.quantity := 1;
     TransactionItem.price := 10;
     TransactionItem.total := 10 |}.

(** What the form submits when "Ali" is typed as the customer name. *)
Definition typedData : InsertTransaction.t :=
  {| InsertTransaction.customerId := None;
     InsertTransaction.customerName := Some (lit "Ali");
     InsertTransaction.currency := TRY;
     InsertTransaction.paymentType := cash;
     InsertTransaction.discount := lit "0";
     InsertTransaction.total := [];
     InsertTransaction.tax := [] |}.

Definition ali : Customer.t :=
  {| Customer.id := lit "c-1"; Customer.name := lit "Ali" |}.

(** A customer record whose name is the empty string. *)
Definition nameless : Customer.t :=
  {| Customer.id := lit "c-2"; Customer.name := [] |}.

(** What the form submits when "Veli" is typed as the customer name. *)
Definition veliData : InsertTransaction.t :=
  {| InsertTransaction.customerId := None;
     InsertTransaction.customerName := Some (lit "Veli");
     InsertTransaction.currency := TRY;
     InsertTransaction.paymentType := cash;
     InsertTransaction.discount := lit "0";
     InsertTransaction.total := [];
     InsertTransaction.tax := [] |}.

(** A draft with one line and the customer [c] picked. *)
Definition draftFor (c : Customer.t) : State :=
  setSelectedCustomer (Some c) (setItems [soleLine] initialState).

End Sample.

(* ------------------------------------------------------------------ *)
(** ** The other handlers and what a render derives *)

Definition setCustomerSearch (v : jsstring) (st : State) : State :=
  {| items := items st;
     selectedCustomer := selectedCustomer st;
     customerSearch := v;
     productSearch := productSearch st;
     barcodeInput := barcodeInput st;
     lastScannedBarcode := lastScannedBarcode st;
     form := form st |}.

Definition setProductSearch (v : jsstring) (st : State) : State :=
  {| items := items st;
     selectedCustomer := selectedCustomer st;
     customerSearch := customerSearch st;
     productSearch := v;
     barcodeInput := barcodeInput st;
     lastScannedBarcode := lastScannedBarcode st;
     form := form st |}.

(** A change of the form values: a registered input edited, or
    [form.setValue]. *)
Definition setForm (v : FormValues) (st : State) : State :=
  {| items := items st;
     selectedCustomer := selectedCustomer st;
     customerSearch := customerSearch st;
     productSearch := productSearch st;
     barcodeInput := barcodeInput st;
     lastScannedBarcode := lastScannedBarcode st;
     form := v |}.

(** The input registered as ["customerName"] edited to [v]. *)
Definition typeCustomerName (v : jsstring) (st : State) : State :=
  setForm {| customerName := v;
             discount := discount (form st);
             paymentType := paymentType (form st);
             currency := currency (form st) |} st.

(** The input registered as ["discount"] edited to [v]. *)
Definition typeDiscount (v : jsstring) (st : State) : State :=
  setForm {| customerName := customerName (form st);
             discount := v;
             paymentType := paymentType (form st);
             currency := currency (form st) |} st.

(** [form.setValue("currency", value)] *)
Definition setCurrency (v : Currency) (st : State) : State :=
  setForm {| customerName := customerName (form st);
             discount := discount (form st);
             paymentType := paymentType (form st);
             currency := v |} st.

(** [form.setValue("paymentType", value)] *)
Definition setPaymentType (v : PaymentType) (st : State) : State :=
  setForm {| customerName := customerName (form st);
             discount := discount (form st);
             paymentType := v;
             currency := currency (form st) |} st.

(** The string a currency value is. *)
Definition currencyCode (c : Currency) : jsstring :=
  match c with
  | TRY => lit "TRY"
  | USD => lit "USD"
  end.

(** [getCurrencySymbol(currency)]; the lira sign is U+20BA. *)
Definition getCurrencySymbol (currency : jsstring) : jsstring :=
  if eqb currency (lit "USD") then lit "$" else [8378%N].

(** The symbol a render prints next to an amount:
    [getCurrencySymbol(form.watch("currency") || "TRY")]. *)
Definition shownSymbol (st : State) : jsstring :=
  getCurrencySymbol (or (currencyCode (currency (form st))) (lit "TRY")).



Section Rest.

Variable parseFloat : jsstring -> float.
Variable toString : float -> jsstring.

(** [String.prototype.toLowerCase]. *)
Variable toLowerCase : jsstring -> jsstring.

(** [handleBarcodeKeyPress(e)], for [e.key = key]. *)
Definition handleBarcodeKeyPress (key : jsstring) (st : State) : State :=
  if eqb key (lit "Enter") then handleBarcodeSearch st else st.




(** What can happen to the mounted form, each with the values the
    environment supplies. *)
Inductive Event : Type :=
| BarcodeChange (value : jsstring)
| BarcodeKeyDown (key : jsstring)
| SearchClick
| ScannedProductChange (uuid : jsstring) (scannedProduct : option Product.t)
| CustomerPick (customers : list Customer.t) (value : jsstring)
| CustomerSearchChange (value : jsstring)
| CustomerNameChange (value : jsstring)
| CurrencyPick (value : Currency)
| PaymentTypePick (value : PaymentType)
| AddProductClick
| ProductSearchChange (value : jsstring)
| ProductClick (uuid : jsstring) (product : Product.t)
| RemoveClick (item : TransactionItem.t)
| DiscountChange (value : jsstring)
| CancelClick
| Submit (data : InsertTransaction.t)
| MutationSuccess
| MutationError
| DialogOpenChange.

(** The handler of each event. *)
Definition step (st : State) (e : Event) : State * list Effect :=
  match e with
  | BarcodeChange value => (setBarcodeInput value st, [])
  | BarcodeKeyDown key => (handleBarcodeKeyPress key st, [])
  | SearchClick => (handleBarcodeSearch st, [])
  | ScannedProductChange uuid scannedProduct =>
      (autoAdd parseFloat uuid scannedProduct st, [])
  | CustomerPick customers value => (selectCustomer customers value st, [])
  | CustomerSearchChange value => (setCustomerSearch value st, [])
  | CustomerNameChange value => (typeCustomerName value st, [])
  | CurrencyPick value => (setCurrency value st, [])
  | PaymentTypePick value => (setPaymentType value st, [])
  | AddProductClick => (setProductSearch [] st, [])
  | ProductSearchChange value => (setProductSearch value st, [])
  | ProductClick uuid product => (addItem parseFloat uuid product st, [])
  | RemoveClick item => (removeItem item st, [])
  | DiscountChange value => (typeDiscount value st, [])
  | CancelClick => (st, [OnClose])
  | Submit data => onSubmit parseFloat toString data st
  | MutationSuccess => onSuccess st
  | MutationError => onError st
  | DialogOpenChange => (st, [OnClose])
  end.

(** A run of events: the last state and everything asked of the
    environment on the way. *)
Fixpoint run (evs : list Event) (st : State) : State * list Effect :=
  match evs with
  | [] => (st, [])
  | e :: evs' =>
      let r1 := step st e in
      let r2 := run evs' (fst r1) in
      (fst r2, snd r1 ++ snd r2)
  end.

(** The values [crypto.randomUUID()] may be asked for during [evs]. *)
Fixpoint uuidsOf (evs : list Event) : list jsstring :=
  match evs with
  | [] => []
  | ProductClick uuid _ :: evs' => uuid :: uuidsOf evs'
  | ScannedProductChange uuid (Some _) :: evs' => uuid :: uuidsOf evs'
  | _ :: evs' => uuidsOf evs'
  end.

Definition isSubmit (e : Event) : bool :=
  match e with
  | Submit _ => true
  | _ => false
  end.

Definition isMutate (x : Effect) : bool :=
  match x with
  | Mutate _ => true
  | _ => false
  end.

Definition isOnClose (x : Effect) : bool :=
  match x with
  | OnClose => true
  | _ => false
  end.

Definition isInvalidate (x : Effect) : bool :=
  match x with
  | InvalidateQueries _ => true
  | _ => false
  end.

Definition closes (e : Event) : bool :=
  match e with
  | CancelClick | DialogOpenChange | MutationSuccess => true
  | _ => false
  end.

Definition isSuccess (e : Event) : bool :=
  match e with
  | MutationSuccess => true
  | _ => false
  end.

End Rest.

(** A line's total agrees with its quantity and price: it is their product,
    or the price itself on a line of quantity 1. *)
Definition lineOk (item : TransactionItem.t) : Prop :=
  TransactionItem.total item
  = (TransactionItem.quantity item * TransactionItem.price item)%float
  \/ (TransactionItem.quantity item = 1%float
      /\ TransactionItem.total item = TransactionItem.price item).

(** [1 + 1 + ... + 1], with [n] additions. *)
Fixpoint countUp (n : nat) : float :=
  match n with
  | O => 1%float
  | S k => (countUp k + 1)%float
  end.

(** More sample values. *)
Module SampleText.


Definition catalogue : list Product.t :=
  [ Sample.apple; Sample.pear;
    {| Product.id := lit "p-3"; Product.name := lit "Pineapple";
       Product.price := lit "7" |} ].

(** The second of [Sample.twoLines]. *)
Definition pearLine : TransactionItem.t :=
  {| TransactionItem.id := lit "b";
     TransactionItem.transactionId := [];
     TransactionItem.productId := lit "p-2";
     TransactionItem.productName := lit "pear";
     TransactionItem.quantity := 1%float;
     TransactionItem.price := 5%float;
     TransactionItem.total := 5%float |}.


End SampleText.

(* ------------------------------------------------------------------ *)
(** ** Strings: equality and trimming *)

Lemma eqb_refl (a : jsstring) : eqb a a = true.
Proof.
  induction a as [|x a IH]; simpl; [reflexivity|].
  now rewrite N.eqb_refl, IH.
Qed.

Lemma eqb_eq (a b : jsstring) : eqb a b = true <-> a = b.
Proof.
  split.
  - revert b; induction a as [|x a IH]; intros [|y b] H; simpl in H;
      try discriminate; [reflexivity|].
    apply andb_true_iff in H as [Hx Hab].
    apply N.eqb_eq in Hx. apply IH in Hab. now subst.
  - intros ->. apply eqb_refl.
Qed.

Lemma eqb_neq (a b : jsstring) : eqb a b = false <-> a <> b.
Proof.
  rewrite <- eqb_eq. destruct (eqb a b); split; congruence.
Qed.


(** [trimStart] cuts a whitespace prefix off. *)
Lemma trimStart_split (s : jsstring) :
  exists pre, s = pre ++ trimStart s /\ forallb is_white_space pre = true.
Proof.
  induction s as [|c s [pre [E W]]]; simpl.
  - exists []. split; reflexivity.
  - destruct (is_white_space c) eqn:Hc.
    + exists (c :: pre). simpl. rewrite Hc, W. split; [now f_equal|reflexivity].
    + exists []. split; reflexivity.
Qed.

Lemma trimStart_head (s : jsstring) :
  match trimStart s with
  | [] => True
  | c :: _ => is_white_space c = false
  end.
Proof.
  induction s as [|c s IH]; simpl; [exact I|].
  destruct (is_white_space c) eqn:Hc; [exact IH|exact Hc].
Qed.

Lemma trimStart_nil (s : jsstring) :
  trimStart s = [] <-> forallb is_white_space s = true.
Proof.
  induction s as [|c s IH]; simpl; [tauto|].
  destruct (is_white_space c); simpl; [exact IH|].
  split; discriminate.
Qed.

Lemma forallb_rev {A} (f : A -> bool) (l : list A) :
  forallb f (rev l) = forallb f l.
Proof.
  induction l as [|x l IH]; simpl; [reflexivity|].
  rewrite forallb_app, IH. simpl. rewrite andb_true_r. apply andb_comm.
Qed.

(** What [trim] returns: the string without a whitespace prefix and a
    whitespace suffix, neither of which can be extended. *)
Lemma trim_split (s : jsstring) :
  exists pre post,
    s = pre ++ trim s ++ post
    /\ forallb is_white_space pre = true
    /\ forallb is_white_space post = true
    /\ (forall c r, trim s = c :: r -> is_white_space c = false)
    /\ (forall c r, trim s = r ++ [c] -> is_white_space c = false).
Proof.
  unfold trim, trimEnd.
  destruct (trimStart_split s) as [pre [E W]].
  destruct (trimStart_split (rev (trimStart s))) as [post [E' W']].
  set (m := trimStart (rev (trimStart s))) in *.
  assert (Em : trimStart s = rev m ++ rev post).
  { rewrite <- (rev_involutive (trimStart s)), E', rev_app_distr. reflexivity. }
  exists pre, (rev post). repeat split.
  - now rewrite <- Em.
  - exact W.
  - now rewrite forallb_rev.
  - intros c r Hr.
    pose proof (trimStart_head s) as Hh. rewrite Em, Hr in Hh. exact Hh.
  - intros c r Hr.
    pose proof (trimStart_head (rev (trimStart s))) as Hh. fold m in Hh.
    apply (f_equal (@rev N)) in Hr.
    rewrite rev_involutive, rev_app_distr in Hr. simpl in Hr.
    rewrite Hr in Hh. exact Hh.
Qed.

Lemma trim_nil (s : jsstring) :
  trim s = [] <-> forallb is_white_space s = true.
Proof.
  unfold trim, trimEnd. split.
  - intros H. apply (f_equal (@rev N)) in H. rewrite rev_involutive in H.
    simpl in H. apply trimStart_nil in H. rewrite forallb_rev in H.
    apply trimStart_nil.
    pose proof (trimStart_head s) as Hh.
    destruct (trimStart s) as [|c r]; [reflexivity|].
    simpl in H. rewrite Hh in H. discriminate.
  - intros H. apply trimStart_nil in H. rewrite H. reflexivity.
Qed.

(* ------------------------------------------------------------------ *)
(** ** Item aggregation *)

Section ItemAggregation.

Variable parseFloat : jsstring -> float.

Local Open Scope float_scope.

Local Abbreviation addItem := (addItem parseFloat).
Local Abbreviation runOps := (runOps parseFloat).
Local Abbreviation newLine := (newLine parseFloat).
Local Abbreviation pids l := (map TransactionItem.productId l).

Lemma find_absent (pid : jsstring) (l : list TransactionItem.t) :
  find (fun item => eqb (TransactionItem.productId item) pid) l = None
  <-> absent pid l.
Proof.
  unfold absent. split.
  - intros H item Hin. apply eqb_neq.
    exact (find_none _ _ H item Hin).
  - intros H. induction l as [|x l IH]; simpl; [reflexivity|].
    destruct (eqb (TransactionItem.productId x) pid) eqn:E.
    + apply eqb_eq in E. exfalso. apply (H x); [now left|exact E].
    + apply IH. intros item Hin. apply H. now right.
Qed.

Lemma absent_not_In (pid : jsstring) (l : list TransactionItem.t) :
  absent pid l <-> ~ In pid (pids l).
Proof.
  unfold absent. rewrite in_map_iff. split.
  - intros H [item [E Hin]]. exact (H item Hin E).
  - intros H item Hin E. apply H. now exists item.
Qed.

Lemma linesOf_absent (pid : jsstring) (l : list TransactionItem.t) :
  absent pid l -> linesOf pid l = [].
Proof.
  unfold linesOf. induction l as [|x l IH]; intros H; simpl; [reflexivity|].
  destruct (eqb (TransactionItem.productId x) pid) eqn:E.
  - apply eqb_eq in E. exfalso. apply (H x); [now left|exact E].
  - apply IH. intros item Hin. apply H. now right.
Qed.

(** The two branches of [addItem]. *)
Lemma addItem_absent (uuid : jsstring) (p : Product.t) (st : State) :
  absent (Product.id p) (items st) ->
  addItem uuid p st = setItems (items st ++ [newLine uuid p]) st.
Proof.
  intros H. unfold addItem. apply find_absent in H. rewrite H. reflexivity.
Qed.

Lemma addItem_present (uuid : jsstring) (p : Product.t) (st : State) :
  ~ absent (Product.id p) (items st) ->
  addItem uuid p st =
  setItems
    (map (fun item =>
            if eqb (TransactionItem.productId item) (Product.id p)
            then oneMore item else item)
         (items st))
    st.
Proof.
  intros H. unfold addItem.
  destruct (find _ (items st)) eqn:F; [reflexivity|].
  exfalso. apply H. now apply find_absent.
Qed.

Lemma absent_dec (pid : jsstring) (l : list TransactionItem.t) :
  absent pid l \/ ~ absent pid l.
Proof.
  destruct (find (fun item => eqb (TransactionItem.productId item) pid) l)
    eqn:F.
  - right. intros H. apply find_absent in H. congruence.
  - left. now apply find_absent.
Qed.

Lemma pids_increment (pid : jsstring) (l : list TransactionItem.t) :
  pids (map (fun item =>
               if eqb (TransactionItem.productId item) pid
               then oneMore item else item) l)
  = pids l.
Proof.
  induction l as [|x l IH]; simpl; [reflexivity|].
  rewrite IH. now destruct (eqb (TransactionItem.productId x) pid).
Qed.

Lemma NoDup_snoc {A} (l : list A) (x : A) :
  NoDup l -> ~ In x l -> NoDup (l ++ [x]).
Proof.
  intros Hl Hx. induction Hl as [|y l Hy Hl IH]; simpl.
  - constructor; [intros []|constructor].
  - constructor.
    + rewrite in_app_iff. simpl. intros [H|[H|[]]]; [now apply Hy|].
      subst. apply Hx. now left.
    + apply IH. intros H. apply Hx. now right.
Qed.

Lemma NoDup_pids_filter (f : TransactionItem.t -> bool)
      (l : list TransactionItem.t) :
  NoDup (pids l) -> NoDup (pids (filter f l)).
Proof.
  induction l as [|x l IH]; simpl; intros H; [constructor|].
  inversion H as [|? ? Hx Hl]; subst.
  destruct (f x); simpl; [|now apply IH].
  constructor; [|now apply IH].
  intros Hin. apply Hx.
  apply in_map_iff in Hin as [y [E Hy]].
  apply filter_In in Hy as [Hy _].
  apply in_map_iff. now exists y.
Qed.

(** Both operations keep the product ids of the lines distinct. *)
Lemma addItem_NoDup (uuid : jsstring) (p : Product.t) (st : State) :
  NoDup (pids (items st)) -> NoDup (pids (items (addItem uuid p st))).
Proof.
  intros H. destruct (absent_dec (Product.id p) (items st)) as [A|A].
  - rewrite (addItem_absent uuid p st A). simpl.
    rewrite map_app. simpl. apply NoDup_snoc; [exact H|].
    now apply absent_not_In.
  - rewrite (addItem_present uuid p st A). simpl.
    now rewrite pids_increment.
Qed.

Lemma removeItem_NoDup (item : TransactionItem.t) (st : State) :
  NoDup (pids (items st)) -> NoDup (pids (items (removeItem item st))).
Proof. intros H. simpl. now apply NoDup_pids_filter. Qed.

Lemma runOps_NoDup (ops : list ItemOp) (st : State) :
  NoDup (pids (items st)) -> NoDup (pids (items (runOps ops st))).
Proof.
  revert st. induction ops as [|op ops IH]; intros st H; [exact H|].
  simpl. apply IH. destruct op; simpl.
  - now apply addItem_NoDup.
  - now apply removeItem_NoDup.
Qed.

Lemma NoDup_linesOf (pid : jsstring) (l : list TransactionItem.t) :
  NoDup (pids l) -> List.length (linesOf pid l) <= 1.
Proof.
  induction l as [|x l IH]; simpl; intros H; [lia|].
  inversion H as [|? ? Hx Hl]; subst.
  destruct (eqb (TransactionItem.productId x) pid) eqn:E; [|now apply IH].
  apply eqb_eq in E. subst pid.
  fold (linesOf (TransactionItem.productId x) l).
  rewrite linesOf_absent; [simpl; lia|].
  now apply absent_not_In.
Qed.

Lemma increment_absent (pid : jsstring) (l : list TransactionItem.t) :
  absent pid l ->
  map (fun item =>
         if eqb (TransactionItem.productId item) pid
         then oneMore item else item) l
  = l.
Proof.
  induction l as [|x l IH]; intros H; simpl; [reflexivity|].
  rewrite IH by (intros item Hin; apply H; now right).
  destruct (eqb (TransactionItem.productId x) pid) eqn:E; [|reflexivity].
  apply eqb_eq in E. exfalso. apply (H x); [now left|exact E].
Qed.

(** Adding [p'] right after [p], for the same product id, to a list
    without a line for it. *)
Lemma addItem_twice (u1 u2 : jsstring) (p p' : Product.t) (st : State) :
  absent (Product.id p) (items st) ->
  Product.id p' = Product.id p ->
  addItem u2 p' (addItem u1 p st)
  = setItems (items st ++ [oneMore (newLine u1 p)]) st.
Proof.
  intros A E. rewrite (addItem_absent u1 p st A).
  rewrite addItem_present.
  - simpl. rewrite E, map_app, (increment_absent _ _ A). simpl.
    now rewrite eqb_refl.
  - simpl. intros H. apply (H (newLine u1 p)); [|now rewrite E].
    apply in_or_app. right. now left.
Qed.

End ItemAggregation.

(* ------------------------------------------------------------------ *)
(** ** Totals *)

Lemma bigsum_ext (f g : nat -> float) (n : nat) :
  (forall i, i < n -> f i = g i) -> bigsum f n = bigsum g n.
Proof.
  induction n as [|n IH]; intros H; simpl; [reflexivity|].
  rewrite IH by (intros i Hi; apply H; lia).
  rewrite (H n) by lia. reflexivity.
Qed.

Lemma lineTotal_app_l (l : list TransactionItem.t) (x : TransactionItem.t)
      (i : nat) :
  i < List.length l -> lineTotal (l ++ [x]) i = lineTotal l i.
Proof. intros H. unfold lineTotal. now rewrite nth_error_app1. Qed.

Lemma lineTotal_app_r (l : list TransactionItem.t) (x : TransactionItem.t) :
  lineTotal (l ++ [x]) (List.length l) = TransactionItem.total x.
Proof.
  unfold lineTotal. rewrite nth_error_app2 by lia.
  now rewrite Nat.sub_diag.
Qed.

(** The [reduce] of [calculateTotals] adds the line totals up in order. *)
Lemma reduce_sumLineTotals (l : list TransactionItem.t) :
  fold_left (fun sum item => (sum + TransactionItem.total item)%float) l
            0%float
  = sumLineTotals l.
Proof.
  unfold sumLineTotals.
  induction l as [|x l IH] using rev_ind; [reflexivity|].
  rewrite fold_left_app, length_app, Nat.add_comm. simpl.
  rewrite IH, lineTotal_app_r.
  f_equal. apply bigsum_ext. intros i Hi. symmetry.
  now apply lineTotal_app_l.
Qed.

(* ------------------------------------------------------------------ *)
(** ** The claims *)

(** C1.  Whatever sequence of [addItem] and remove operations is run from an
    empty item list, the list holds at most one line per product id; and
    adding a product twice to a list that has no line for it leaves exactly
    one line for it, the list being one line longer, with quantity 2 and
    total 2 x price. *)
Theorem C1_one_line_per_product (parseFloat : jsstring -> float) :
  (forall (ops : list ItemOp) (st : State) (pid : jsstring),
      items st = [] ->
      List.length (linesOf pid (items (runOps parseFloat ops st))) <= 1)
  /\ (forall (u1 u2 : jsstring) (p : Product.t) (st : State),
         absent (Product.id p) (items st) ->
         let st' := addItem parseFloat u2 p (addItem parseFloat u1 p st) in
         let line :=
           {| TransactionItem.id := u1;
              TransactionItem.transactionId := [];
              TransactionItem.productId := Product.id p;
              TransactionItem.productName := Product.name p;
              TransactionItem.quantity := 2;
              TransactionItem.price := parseFloat (Product.price p);
              TransactionItem.total :=
                (2 * parseFloat (Product.price p))%float |} in
         items st' = items st ++ [line]
         /\ linesOf (Product.id p) (items st') = [line]).
Proof.
  split.
  - intros ops st pid E. apply NoDup_linesOf, runOps_NoDup.
    rewrite E. constructor.
  - intros u1 u2 p st A st' line. subst st'.
    rewrite (addItem_twice parseFloat u1 u2 p p st A eq_refl). simpl.
    change (oneMore (newLine parseFloat u1 p)) with line.
    split; [reflexivity|].
    unfold linesOf. rewrite filter_app.
    fold (linesOf (Product.id p) (items st)).
    rewrite (linesOf_absent _ _ A). simpl. now rewrite eqb_refl.
Qed.

Lemma C1_one_line_per_product_witness :
  List.length
    (linesOf (lit "p-1")
       (items (runOps Sample.parseFloat
                 [OpAdd (lit "a") Sample.apple; OpAdd (lit "b") Sample.pear;
                  OpAdd (lit "c") Sample.apple]
                 initialState))) <= 1
  /\ linesOf (lit "p-1")
       (items (addItem Sample.parseFloat (lit "b") Sample.apple
                 (addItem Sample.parseFloat (lit "a") Sample.apple initialState)))
     = [ {| TransactionItem.id := lit "a";
            TransactionItem.transactionId := [];
            TransactionItem.productId := lit "p-1";
            TransactionItem.productName := lit "apple";
            TransactionItem.quantity := 2;
            TransactionItem.price := 10;
            TransactionItem.total := 20 |} ].
Proof.
  destruct (C1_one_line_per_product Sample.parseFloat) as [H1 H2].
  split.
  - apply H1. reflexivity.
  - apply (H2 (lit "a") (lit "b") Sample.apple initialState). intros item [].
Defined.

(** C2.  For every item list and discount, [calculateTotals] returns the sum
    of the line totals as subtotal and subtotal minus discount as total,
    whatever the discount is (the field left empty counts as "0"); a discount
    above the subtotal gives a negative total.  The lines 2 x 10 and 1 x 5
    with discount 3 give subtotal 25 and total 22. *)
Theorem C2_calculateTotals (parseFloat : jsstring -> float) :
  (forall (st : State) (d : float),
      parseFloat (if truthy (discount (form st)) then discount (form st)
                  else lit "0") = d ->
      let t := calculateTotals parseFloat st in
      Totals.subtotal t = sumLineTotals (items st)
      /\ Totals.discount t = d
      /\ Totals.total t = (sumLineTotals (items st) - d)%float)
  /\ (forall st : State,
         items st = Sample.twoLines ->
         truthy (discount (form st)) = true ->
         parseFloat (discount (form st)) = 3%float ->
         Totals.subtotal (calculateTotals parseFloat st) = 25%float
         /\ Totals.total (calculateTotals parseFloat st) = 22%float)
  /\ (forall st : State,
         items st = Sample.twoLines ->
         truthy (discount (form st)) = true ->
         parseFloat (discount (form st)) = 30%float ->
         Totals.total (calculateTotals parseFloat st) = (-5)%float
         /\ PrimFloat.ltb (Totals.total (calculateTotals parseFloat st)) 0
            = true).
Proof.
  assert (G : forall (st : State) (d : float),
             parseFloat (if truthy (discount (form st))
                         then discount (form st) else lit "0") = d ->
             let t := calculateTotals parseFloat st in
             Totals.subtotal t = sumLineTotals (items st)
             /\ Totals.discount t = d
             /\ Totals.total t = (sumLineTotals (items st) - d)%float).
  { intros st d Hd t. subst t. unfold calculateTotals, or. simpl.
    rewrite reduce_sumLineTotals, Hd. repeat split. }
  split; [exact G|]. split.
  - intros st Hi Ht Hd.
    destruct (G st 3%float) as [Hs [_ Htot]]; [now rewrite Ht|].
    rewrite Hs, Htot, Hi. split; reflexivity.
  - intros st Hi Ht Hd.
    destruct (G st 30%float) as [_ [_ Htot]]; [now rewrite Ht|].
    rewrite Htot, Hi. split; reflexivity.
Qed.

Lemma C2_calculateTotals_witness :
  (let t := calculateTotals Sample.parseFloat initialState in
   Totals.subtotal t = sumLineTotals []
   /\ Totals.discount t = 0%float
   /\ Totals.total t = (sumLineTotals [] - 0)%float)
  /\ (let st := Sample.withDiscount (lit "3")
                  (setItems Sample.twoLines initialState) in
      Totals.subtotal (calculateTotals Sample.parseFloat st) = 25%float
      /\ Totals.total (calculateTotals Sample.parseFloat st) = 22%float)
  /\ (let st := Sample.withDiscount (lit "30")
                  (setItems Sample.twoLines initialState) in
      Totals.total (calculateTotals Sample.parseFloat st) = (-5)%float
      /\ PrimFloat.ltb (Totals.total (calculateTotals Sample.parseFloat st)) 0
         = true).
Proof.
  destruct (C2_calculateTotals Sample.parseFloat) as [H1 [H2 H3]].
  split; [|split].
  - apply (H1 initialState 0%float). reflexivity.
  - apply H2; reflexivity.
  - apply H3; reflexivity.
Defined.

(** C3.  Removing the only line leaves the item list empty; submitting with
    an empty item list shows the validation error, issues no create request
    and leaves the state as it was. *)
Theorem C3_empty_list_blocks_submit
        (parseFloat : jsstring -> float) (toString : float -> jsstring) :
  (forall (item : TransactionItem.t) (st : State),
      items st = [item] -> items (removeItem item st) = [])
  /\ (forall (data : InsertTransaction.t) (st : State),
         items st = [] ->
         let r := onSubmit parseFloat toString data st in
         fst r = st
         /\ snd r = [Toast txt_error txt_need_one_product destructive]
         /\ (forall p : Payload, ~ In (Mutate p) (snd r))).
Proof.
  split.
  - intros item st E. simpl. rewrite E. simpl. now rewrite eqb_refl.
  - intros data st E r. subst r. unfold onSubmit. rewrite E. simpl.
    repeat split. intros p [H|[]]. discriminate H.
Qed.

Lemma C3_empty_list_blocks_submit_witness :
  (let st := setItems [Sample.soleLine] initialState in
   items (removeItem Sample.soleLine st) = [])
  /\ (let st := removeItem Sample.soleLine
                  (setItems [Sample.soleLine] initialState) in
      let r := onSubmit Sample.parseFloat Sample.toString
                 Sample.typedData st in
      fst r = st
      /\ snd r = [Toast txt_error txt_need_one_product destructive]
      /\ (forall p : Payload, ~ In (Mutate p) (snd r))).
Proof.
  destruct (C3_empty_list_blocks_submit Sample.parseFloat Sample.toString)
    as [H1 H2].
  split.
  - apply H1. reflexivity.
  - apply H2. reflexivity.
Defined.

(** C4.  A new line takes its price from the product it is added for; when a
    product with the same id but another listed price is added later, the
    line keeps the price it has and its total is recomputed from that price;
    every other line is left as it is. *)
Theorem C4_price_captured (parseFloat : jsstring -> float) :
  (forall (uuid : jsstring) (p : Product.t) (st : State),
      absent (Product.id p) (items st) ->
      exists line,
        items (addItem parseFloat uuid p st) = items st ++ [line]
        /\ TransactionItem.productId line = Product.id p
        /\ TransactionItem.quantity line = 1%float
        /\ TransactionItem.price line = parseFloat (Product.price p)
        /\ TransactionItem.total line = parseFloat (Product.price p))
  /\ (forall (uuid : jsstring) (p' : Product.t) (st : State) (i : nat)
             (line : TransactionItem.t),
         nth_error (items st) i = Some line ->
         exists line',
           nth_error (items (addItem parseFloat uuid p' st)) i = Some line'
           /\ TransactionItem.price line' = TransactionItem.price line
           /\ (TransactionItem.productId line = Product.id p' ->
               TransactionItem.quantity line'
               = (TransactionItem.quantity line + 1)%float
               /\ TransactionItem.total line'
                  = ((TransactionItem.quantity line + 1)
                     * TransactionItem.price line)%float)
           /\ (TransactionItem.productId line <> Product.id p' ->
               line' = line))
  /\ (forall (u1 u2 : jsstring) (p p' : Product.t) (st : State),
         absent (Product.id p) (items st) ->
         Product.id p' = Product.id p ->
         exists line,
           items (addItem parseFloat u2 p' (addItem parseFloat u1 p st))
           = items st ++ [line]
           /\ TransactionItem.quantity line = 2%float
           /\ TransactionItem.price line = parseFloat (Product.price p)
           /\ TransactionItem.total line
              = (2 * parseFloat (Product.price p))%float).
Proof.
  split; [|split].
  - intros uuid p st A. exists (newLine parseFloat uuid p).
    rewrite (addItem_absent parseFloat uuid p st A). simpl. repeat split.
  - intros uuid p' st i line Hn.
    destruct (absent_dec (Product.id p') (items st)) as [A|A].
    + exists line. rewrite (addItem_absent parseFloat uuid p' st A). simpl.
      rewrite nth_error_app1 by (apply nth_error_Some; congruence).
      repeat split; try assumption.
      * exfalso. apply (A line); [|assumption].
        now apply nth_error_In with i.
      * exfalso. apply (A line); [|assumption].
        now apply nth_error_In with i.
    + rewrite (addItem_present parseFloat uuid p' st A). simpl.
      rewrite nth_error_map, Hn. simpl.
      destruct (eqb (TransactionItem.productId line) (Product.id p')) eqn:E.
      * exists (oneMore line). repeat split.
        intros H. apply eqb_eq in E. contradiction.
      * exists line. apply eqb_neq in E. repeat split; try contradiction.
  - intros u1 u2 p p' st A E. exists (oneMore (newLine parseFloat u1 p)).
    rewrite (addItem_twice parseFloat u1 u2 p p' st A E). simpl.
    repeat split.
Qed.

Lemma C4_price_captured_witness :
  (exists line,
      items (addItem Sample.parseFloat (lit "a") Sample.apple initialState)
      = items initialState ++ [line]
      /\ TransactionItem.productId line = Product.id Sample.apple
      /\ TransactionItem.quantity line = 1%float
      /\ TransactionItem.price line = 10%float
      /\ TransactionItem.total line = 10%float)
  /\ (exists line,
         items (addItem Sample.parseFloat (lit "b") Sample.dearApple
                  (addItem Sample.parseFloat (lit "a") Sample.apple
                     initialState))
         = items initialState ++ [line]
         /\ TransactionItem.quantity line = 2%float
         /\ TransactionItem.price line = 10%float
         /\ TransactionItem.total line = 20%float).
Proof.
  destruct (C4_price_captured Sample.parseFloat) as [H1 [_ H3]].
  split.
  - apply (H1 (lit "a") Sample.apple initialState). intros item [].
  - apply (H3 (lit "a") (lit "b") Sample.apple Sample.dearApple initialState).
    + intros item [].
    + reflexivity.
Defined.

(** C5 as the spec words it fails: with a selected customer whose name is the
    empty string, the request carries the typed name, not the selected
    customer's. *)
Lemma C5_customer_name_counterexample :
  ~ (forall (data : InsertTransaction.t) (st : State) (p : Payload),
        items st <> [] ->
        In (Mutate p) (snd (onSubmit Sample.parseFloat Sample.toString data st)) ->
        InsertTransaction.customerName (transaction p)
        = Some (specCustomerName (selectedCustomer st)
                                 (InsertTransaction.customerName data))).
Proof.
  intros H.
  pose (st := Sample.draftFor Sample.nameless).
  assert (E : exists p,
             snd (onSubmit Sample.parseFloat Sample.toString
                           Sample.typedData st) = [Mutate p]
             /\ InsertTransaction.customerName (transaction p)
                = Some (lit "Ali")).
  { eexists. split; reflexivity. }
  destruct E as [p [Ep En]].
  specialize (H Sample.typedData st p).
  rewrite En, Ep in H.
  assert (C : Some (lit "Ali") = Some (@nil N)).
  { apply H; [discriminate|now left]. }
  discriminate C.
Qed.

(** C5, amended.  A submission with a non-empty item list leaves the state
    as it is and issues exactly one create request.  Its transaction carries
    the submitted currency, payment type and discount, the computed total as
    text, tax "0", and as customer name: the selected customer's name when
    one is selected and that name is not empty; else the typed name when it
    is there and not empty; else the fallback text.  The request carries the
    whole item list. *)
Theorem C5_submit_payload
        (parseFloat : jsstring -> float) (toString : float -> jsstring)
        (data : InsertTransaction.t) (st : State) :
  items st <> [] ->
  exists p : Payload,
    onSubmit parseFloat toString data st = (st, [Mutate p])
    /\ payload_items p = items st
    /\ InsertTransaction.currency (transaction p)
       = InsertTransaction.currency data
    /\ InsertTransaction.paymentType (transaction p)
       = InsertTransaction.paymentType data
    /\ InsertTransaction.discount (transaction p)
       = InsertTransaction.discount data
    /\ InsertTransaction.total (transaction p)
       = toString (Totals.total (calculateTotals parseFloat st))
    /\ InsertTransaction.tax (transaction p) = lit "0"
    /\ (forall c, selectedCustomer st = Some c -> Customer.name c <> [] ->
                  InsertTransaction.customerName (transaction p)
                  = Some (Customer.name c))
    /\ (noSelectedName st ->
        forall n, InsertTransaction.customerName data = Some n -> n <> [] ->
                  InsertTransaction.customerName (transaction p) = Some n)
    /\ (noSelectedName st -> noTypedName data ->
        InsertTransaction.customerName (transaction p)
        = Some txt_unspecified_customer).
Proof.
  intros Hne. unfold onSubmit.
  destruct (items st) as [|x l] eqn:Ei; [congruence|]. simpl.
  eexists. split; [reflexivity|]. simpl. rewrite Ei.
  repeat split.
  - intros c Hc Hn. rewrite Hc. simpl.
    destruct (Customer.name c); [congruence|reflexivity].
  - intros Hs n Hd Hn. unfold noSelectedName in Hs. rewrite Hd.
    destruct (selectedCustomer st) as [c|]; simpl.
    + rewrite Hs. simpl. destruct n; [congruence|reflexivity].
    + destruct n; [congruence|reflexivity].
  - intros Hs Ht. unfold noSelectedName in Hs. unfold noTypedName in Ht.
    destruct (selectedCustomer st) as [c|]; simpl;
      [rewrite Hs; simpl|];
      destruct (InsertTransaction.customerName data) as [n|];
      try rewrite Ht; reflexivity.
Qed.

Lemma C5_submit_payload_witness :
  exists p : Payload,
    onSubmit Sample.parseFloat Sample.toString Sample.veliData
             (Sample.draftFor Sample.ali)
    = (Sample.draftFor Sample.ali, [Mutate p])
    /\ payload_items p = [Sample.soleLine]
    /\ InsertTransaction.total (transaction p) = lit "10"
    /\ InsertTransaction.tax (transaction p) = lit "0"
    /\ InsertTransaction.customerName (transaction p) = Some (lit "Ali").
Proof.
  destruct (C5_submit_payload Sample.parseFloat Sample.toString
              Sample.veliData (Sample.draftFor Sample.ali))
    as [p [E [Hi [_ [_ [_ [Ht [Hx [Hn _]]]]]]]]].
  - discriminate.
  - exists p. repeat split; try assumption.
    apply (Hn Sample.ali); [reflexivity|discriminate].
Defined.

(** C6 on the code.  After a successful submission both cached views are
    invalidated, the success toast is shown, the form values are back at
    their defaults, the item list is empty and [onClose] is called; the
    selected customer, though, is still the one picked for the invoice just
    created, and the next submission is made out to that customer whatever
    name is typed. *)
Lemma C6_onSuccess_keeps_selected_customer :
  let st := Sample.draftFor Sample.ali in
  let st' := fst (onSuccess st) in
  snd (onSuccess st)
  = [InvalidateQueries url_transactions;
     InvalidateQueries url_dashboard_metrics;
     Toast txt_success txt_invoice_created default;
     OnClose]
  /\ items st' = []
  /\ form st' = defaultValues
  /\ selectedCustomer st' = Some Sample.ali
  /\ st' <> initialState
  /\ exists p,
      snd (onSubmit Sample.parseFloat Sample.toString Sample.veliData
                    (addItem Sample.parseFloat (lit "b") Sample.pear st'))
      = [Mutate p]
      /\ InsertTransaction.customerId (transaction p) = Some (lit "c-1")
      /\ InsertTransaction.customerName (transaction p) = Some (lit "Ali").
Proof.
  repeat split.
  - discriminate.
  - eexists. repeat split.
Qed.

(** C7.  After a failed submission the error toast is shown and the state is
    the one the submission was made from: item list, selected customer and
    form values are what they were, and submitting again issues the same
    request. *)
Theorem C7_onError_keeps_draft
        (parseFloat : jsstring -> float) (toString : float -> jsstring)
        (data : InsertTransaction.t) (st : State) :
  let submitted := onSubmit parseFloat toString data st in
  let failed := onError (fst submitted) in
  snd failed = [Toast txt_error txt_invoice_failed destructive]
  /\ fst failed = st
  /\ items (fst failed) = items st
  /\ selectedCustomer (fst failed) = selectedCustomer st
  /\ form (fst failed) = form st
  /\ onSubmit parseFloat toString data (fst failed) = submitted.
Proof.
  assert (E : fst (onSubmit parseFloat toString data st) = st).
  { unfold onSubmit. now destruct (Nat.eqb (List.length (items st)) 0). }
  simpl. rewrite E. repeat split.
Qed.

(** C8.  When the barcode lookup resolves to a product that has no line yet,
    the item list gets one line for it, with quantity 1, and both the scan
    input and the scanned code are cleared. *)
Theorem C8_scan_adds_line
        (parseFloat : jsstring -> float)
        (uuid : jsstring) (P : Product.t) (st : State) :
  absent (Product.id P) (items st) ->
  let st' := autoAdd parseFloat uuid (Some P) st in
  exists line,
    items st' = items st ++ [line]
    /\ linesOf (Product.id P) (items st') = [line]
    /\ TransactionItem.productId line = Product.id P
    /\ TransactionItem.quantity line = 1%float
    /\ barcodeInput st' = []
    /\ lastScannedBarcode st' = []
    /\ barcodeLookup st' = None.
Proof.
  intros A st'. subst st'. exists (newLine parseFloat uuid P).
  unfold autoAdd. rewrite (addItem_absent parseFloat uuid P st A). simpl.
  repeat split.
  unfold linesOf. rewrite filter_app.
  fold (linesOf (Product.id P) (items st)).
  rewrite (linesOf_absent _ _ A). simpl. now rewrite eqb_refl.
Qed.

Lemma C8_scan_adds_line_witness :
  let st := handleBarcodeSearch (setBarcodeInput (lit "123") initialState) in
  let st' := autoAdd Sample.parseFloat (lit "a") (Some Sample.apple) st in
  barcodeLookup st = Some (lit "123")
  /\ exists line,
      items st' = items st ++ [line]
      /\ linesOf (Product.id Sample.apple) (items st') = [line]
      /\ TransactionItem.productId line = Product.id Sample.apple
      /\ TransactionItem.quantity line = 1%float
      /\ barcodeInput st' = []
      /\ lastScannedBarcode st' = []
      /\ barcodeLookup st' = None.
Proof.
  split; [reflexivity|].
  apply (C8_scan_adds_line Sample.parseFloat (lit "a") Sample.apple
           (handleBarcodeSearch (setBarcodeInput (lit "123") initialState))).
  intros item [].
Defined.

(** C9.  When the lookup of a scanned code ends without a product, the
    effect changes nothing, so the item list is what it was, and the
    not-found notice is rendered.  The effect has no failing path: it is a
    total function of the query result and the state. *)
Theorem C9_not_found
        (parseFloat : jsstring -> float)
        (uuid : jsstring) (q : BarcodeQuery) (st : State) :
  lastScannedBarcode st <> [] ->
  data q = None ->
  isLoading q = false ->
  let st' := autoAdd parseFloat uuid (data q) st in
  st' = st
  /\ items st' = items st
  /\ notFoundNotice q st' = true.
Proof.
  intros Hk Hd Hl st'. subst st'. rewrite Hd. simpl.
  repeat split. unfold notFoundNotice. rewrite Hd, Hl.
  destruct (lastScannedBarcode st); [congruence|reflexivity].
Qed.

Lemma C9_not_found_witness :
  let q := {| data := None; isLoading := false |} in
  let st := handleBarcodeSearch
              (setBarcodeInput (lit "999")
                 (setItems [Sample.soleLine] initialState)) in
  let st' := autoAdd Sample.parseFloat (lit "b") (data q) st in
  st' = st
  /\ items st' = [Sample.soleLine]
  /\ notFoundNotice q st' = true.
Proof.
  apply (C9_not_found Sample.parseFloat (lit "b")
           {| data := None; isLoading := false |}
           (handleBarcodeSearch
              (setBarcodeInput (lit "999")
                 (setItems [Sample.soleLine] initialState)))).
  - discriminate.
  - reflexivity.
  - reflexivity.
Defined.

(** C10.  On an input that is empty or all whitespace [handleBarcodeSearch]
    returns the state it got, so the lookup key does not change and no
    lookup starts; on any other input the scanned code, which is the key
    the lookup runs for, becomes the input without its leading and trailing
    whitespace, and nothing else changes. *)
Theorem C10_handleBarcodeSearch (st : State) :
  (forallb is_white_space (barcodeInput st) = true ->
   handleBarcodeSearch st = st
   /\ barcodeLookup (handleBarcodeSearch st) = barcodeLookup st)
  /\ (forallb is_white_space (barcodeInput st) = false ->
      handleBarcodeSearch st
      = setLastScannedBarcode (trim (barcodeInput st)) st
      /\ barcodeLookup (handleBarcodeSearch st)
         = Some (trim (barcodeInput st))
      /\ exists pre post,
          barcodeInput st = pre ++ trim (barcodeInput st) ++ post
          /\ forallb is_white_space pre = true
          /\ forallb is_white_space post = true
          /\ (forall c r, trim (barcodeInput st) = c :: r ->
                          is_white_space c = false)
          /\ (forall c r, trim (barcodeInput st) = r ++ [c] ->
                          is_white_space c = false)).
Proof.
  unfold handleBarcodeSearch. split.
  - intros H. apply trim_nil in H. rewrite H. simpl. split; reflexivity.
  - intros H.
    assert (T : truthy (trim (barcodeInput st)) = true).
    { destruct (trim (barcodeInput st)) as [|c r] eqn:E; [|reflexivity].
      apply trim_nil in E. congruence. }
    rewrite T. simpl. split; [reflexivity|]. split.
    + unfold barcodeLookup. simpl. now rewrite T.
    + apply trim_split.
Qed.

Lemma C10_handleBarcodeSearch_witness :
  (let st := setBarcodeInput (lit "  ") (Sample.draftFor Sample.ali) in
   handleBarcodeSearch st = st
   /\ barcodeLookup (handleBarcodeSearch st) = barcodeLookup st)
  /\ (let st := setBarcodeInput (lit " 12 3  ") initialState in
      handleBarcodeSearch st = setLastScannedBarcode (lit "12 3") st
      /\ barcodeLookup (handleBarcodeSearch st) = Some (lit "12 3")).
Proof.
  split.
  - apply (C10_handleBarcodeSearch
             (setBarcodeInput (lit "  ") (Sample.draftFor Sample.ali))).
    reflexivity.
  - destruct (C10_handleBarcodeSearch
                (setBarcodeInput (lit " 12 3  ") initialState))
      as [_ H].
    destruct (H eq_refl) as [H1 [H2 _]].
    split; [exact H1|exact H2].
Defined.

(* ------------------------------------------------------------------ *)
(** ** Further properties: lemmas *)

Lemma trimStart_fixed (s : jsstring) :
  (forall c r, s = c :: r -> is_white_space c = false) -> trimStart s = s.
Proof.
  destruct s as [|c r]; intros H; simpl; [reflexivity|].
  now rewrite (H c r eq_refl).
Qed.

Lemma trimEnd_fixed (s : jsstring) :
  (forall c r, s = r ++ [c] -> is_white_space c = false) -> trimEnd s = s.
Proof.
  intros H. unfold trimEnd. rewrite trimStart_fixed.
  - apply rev_involutive.
  - intros c r E. apply (H c (rev r)).
    rewrite <- (rev_involutive s), E. reflexivity.
Qed.

Lemma trim_idempotent (s : jsstring) : trim (trim s) = trim s.
Proof.
  destruct (trim_split s) as [pre [post [_ [_ [_ [Hh Hl]]]]]].
  unfold trim at 1. rewrite (trimStart_fixed _ Hh). now apply trimEnd_fixed.
Qed.




Lemma setItems_same (st : State) : setItems (items st) st = st.
Proof. now destruct st. Qed.

Lemma filter_keep_all {A} (f : A -> bool) (l : list A) :
  (forall x, In x l -> f x = true) -> filter f l = l.
Proof.
  induction l as [|x l IH]; intros H; simpl; [reflexivity|].
  rewrite (H x) by now left.
  f_equal. apply IH. intros y Hy. apply H. now right.
Qed.

Lemma NoDup_app_filter {A B} (g : A -> B) (f : A -> bool) (l : list A)
      (r : list B) :
  NoDup (map g l ++ r) -> NoDup (map g (filter f l) ++ r).
Proof.
  induction l as [|x l IH]; simpl; intros H; [exact H|].
  inversion H as [|? ? Hx Hl]; subst.
  destruct (f x); simpl; [|now apply IH].
  constructor; [|now apply IH].
  intros Hin. apply Hx. apply in_app_iff in Hin as [Hin|Hin].
  - apply in_app_iff. left.
    apply in_map_iff in Hin as [y [E Hy]].
    apply filter_In in Hy as [Hy _].
    apply in_map_iff. now exists y.
  - apply in_app_iff. now right.
Qed.

Lemma NoDup_app_r {A} (l r : list A) : NoDup (l ++ r) -> NoDup r.
Proof.
  induction l as [|x l IH]; simpl; intros H; [exact H|].
  inversion H; subst. now apply IH.
Qed.

Lemma lineOk_oneMore (item : TransactionItem.t) : lineOk (oneMore item).
Proof. left. reflexivity. Qed.

Section RunLemmas.

Variable parseFloat : jsstring -> float.
Variable toString : float -> jsstring.

Local Abbreviation step := (step parseFloat toString).
Local Abbreviation run := (run parseFloat toString).
Local Abbreviation pids l := (map TransactionItem.productId l).
Local Abbreviation ids l := (map TransactionItem.id l).

Lemma items_handleBarcodeSearch (st : State) :
  items (handleBarcodeSearch st) = items st.
Proof.
  unfold handleBarcodeSearch.
  now destruct (negb (truthy (trim (barcodeInput st)))).
Qed.

Lemma items_handleBarcodeKeyPress (key : jsstring) (st : State) :
  items (handleBarcodeKeyPress key st) = items st.
Proof.
  unfold handleBarcodeKeyPress.
  destruct (eqb key (lit "Enter")); [apply items_handleBarcodeSearch|easy].
Qed.

Lemma fst_onSubmit (data : InsertTransaction.t) (st : State) :
  fst (onSubmit parseFloat toString data st) = st.
Proof.
  unfold onSubmit.
  now destruct (Nat.eqb (List.length (items st)) 0).
Qed.

(** The item list after one event. *)
Lemma items_step (st : State) (e : Event) :
  items (fst (step st e))
  = match e with
    | ProductClick uuid product => items (addItem parseFloat uuid product st)
    | ScannedProductChange uuid (Some product) =>
        items (addItem parseFloat uuid product st)
    | RemoveClick item => items (removeItem item st)
    | MutationSuccess => []
    | _ => items st
    end.
Proof.
  destruct e as [v|key| |uuid [p|]|cs v|v|v|v|v| |v|uuid p|item|v| |data| | | ];
    try reflexivity.
  - apply items_handleBarcodeKeyPress.
  - apply items_handleBarcodeSearch.
  - simpl. now rewrite fst_onSubmit.
Qed.

(** A property kept by every handler holds after every run. *)
Lemma run_invariant (P : State -> Prop) :
  (forall st e, P st -> P (fst (step st e))) ->
  forall evs st, P st -> P (fst (run evs st)).
Proof.
  intros Hstep evs. induction evs as [|e evs IH]; intros st H; [exact H|].
  simpl. apply IH, Hstep, H.
Qed.

Lemma ids_increment (pid : jsstring) (l : list TransactionItem.t) :
  ids (map (fun item =>
              if eqb (TransactionItem.productId item) pid
              then oneMore item else item) l)
  = ids l.
Proof.
  induction l as [|x l IH]; simpl; [reflexivity|].
  rewrite IH. now destruct (eqb (TransactionItem.productId x) pid).
Qed.

Lemma addItem_lineOk (uuid : jsstring) (p : Product.t) (st : State) :
  Forall lineOk (items st) -> Forall lineOk (items (addItem parseFloat uuid p st)).
Proof.
  intros H. destruct (absent_dec (Product.id p) (items st)) as [A|A].
  - rewrite (addItem_absent parseFloat uuid p st A). simpl.
    apply Forall_app. split; [exact H|].
    constructor; [|constructor]. right. split; reflexivity.
  - rewrite (addItem_present parseFloat uuid p st A). simpl.
    apply Forall_forall. intros x Hx.
    apply in_map_iff in Hx as [y [E Hy]].
    destruct (eqb (TransactionItem.productId y) (Product.id p)); subst x.
    + apply lineOk_oneMore.
    + exact (proj1 (Forall_forall _ _) H y Hy).
Qed.

Lemma filter_lineOk (f : TransactionItem.t -> bool)
      (l : list TransactionItem.t) :
  Forall lineOk l -> Forall lineOk (filter f l).
Proof.
  intros H. apply Forall_forall. intros x Hx.
  apply filter_In in Hx as [Hx _].
  exact (proj1 (Forall_forall _ _) H x Hx).
Qed.

Lemma step_lineOk (st : State) (e : Event) :
  Forall lineOk (items st) -> Forall lineOk (items (fst (step st e))).
Proof.
  intros H. rewrite items_step.
  destruct e as [v|key| |uuid [p|]|cs v|v|v|v|v| |v|uuid p|item|v| |data| | | ];
    try exact H.
  - now apply addItem_lineOk.
  - now apply addItem_lineOk.
  - simpl. now apply filter_lineOk.
  - constructor.
Qed.

Lemma step_pids_NoDup (st : State) (e : Event) :
  NoDup (pids (items st)) -> NoDup (pids (items (fst (step st e)))).
Proof.
  intros H. rewrite items_step.
  destruct e as [v|key| |uuid [p|]|cs v|v|v|v|v| |v|uuid p|item|v| |data| | | ];
    try exact H.
  - now apply addItem_NoDup.
  - now apply addItem_NoDup.
  - now apply removeItem_NoDup.
  - constructor.
Qed.

Lemma trimmed_handleBarcodeSearch (st : State) :
  trim (lastScannedBarcode st) = lastScannedBarcode st ->
  trim (lastScannedBarcode (handleBarcodeSearch st))
  = lastScannedBarcode (handleBarcodeSearch st).
Proof.
  intros H. unfold handleBarcodeSearch.
  destruct (negb (truthy (trim (barcodeInput st)))); [exact H|].
  simpl. apply trim_idempotent.
Qed.

Lemma step_trimmed (st : State) (e : Event) :
  trim (lastScannedBarcode st) = lastScannedBarcode st ->
  trim (lastScannedBarcode (fst (step st e)))
  = lastScannedBarcode (fst (step st e)).
Proof.
  intros H.
  destruct e as [v|key| |uuid [p|]|cs v|v|v|v|v| |v|uuid p|item|v| |data| | | ];
    try exact H; try reflexivity.
  - simpl. unfold handleBarcodeKeyPress.
    destruct (eqb key (lit "Enter")); [|exact H].
    now apply trimmed_handleBarcodeSearch.
  - now apply trimmed_handleBarcodeSearch.
  - simpl. unfold addItem.
    now destruct (find _ (items st)).
  - simpl. now rewrite fst_onSubmit.
Qed.

End RunLemmas.

(* ------------------------------------------------------------------ *)
(** ** Further properties *)

(** X1.  On a list whose line ids are distinct, the delete button of a line
    takes exactly that line out: the lines before and after it stay, as they
    are and in order, and nothing else in the state changes.  Deleting a
    line whose id no line has changes nothing. *)
Theorem X1_removeItem_exact (item : TransactionItem.t) (st : State) :
  (NoDup (map TransactionItem.id (items st)) ->
   In item (items st) ->
   exists l1 l2,
     items st = l1 ++ item :: l2
     /\ removeItem item st = setItems (l1 ++ l2) st)
  /\ ((forall i, In i (items st) ->
                 TransactionItem.id i <> TransactionItem.id item) ->
      removeItem item st = st).
Proof.
  split.
  - intros Hnd Hin. apply in_split in Hin as [l1 [l2 E]].
    exists l1, l2. split; [exact E|].
    unfold removeItem. f_equal. rewrite E in Hnd |- *.
    rewrite map_app in Hnd. simpl in Hnd.
    pose proof (NoDup_remove_2 _ _ _ Hnd) as Hx.
    rewrite filter_app. simpl. rewrite eqb_refl. simpl.
    rewrite !filter_keep_all; [reflexivity| |].
    + intros x Hxin. apply negb_true_iff, eqb_neq. intros Eid.
      apply Hx, in_app_iff. right. rewrite <- Eid. now apply in_map.
    + intros x Hxin. apply negb_true_iff, eqb_neq. intros Eid.
      apply Hx, in_app_iff. left. rewrite <- Eid. now apply in_map.
  - intros H. unfold removeItem. rewrite filter_keep_all.
    + apply setItems_same.
    + intros x Hx. apply negb_true_iff, eqb_neq. now apply H.
Qed.

Lemma X1_removeItem_exact_witness :
  (exists l1 l2,
      Sample.twoLines = l1 ++ SampleText.pearLine :: l2
      /\ removeItem SampleText.pearLine (setItems Sample.twoLines initialState)
         = setItems (l1 ++ l2) (setItems Sample.twoLines initialState))
  /\ removeItem Sample.soleLine initialState = initialState.
Proof.
  split.
  - apply (X1_removeItem_exact SampleText.pearLine
             (setItems Sample.twoLines initialState)).
    + simpl. repeat constructor; simpl; intuition discriminate.
    + simpl. right. now left.
  - apply (X1_removeItem_exact Sample.soleLine initialState).
    intros i [].
Defined.

(** X2.  As long as [crypto.randomUUID()] never returns the same value
    twice, the lines of the list have distinct ids after every run of events
    from the initial state, so a delete button acts on its own line only. *)
Theorem X2_line_ids_distinct
        (parseFloat : jsstring -> float) (toString : float -> jsstring)
        (evs : list Event) :
  NoDup (uuidsOf evs) ->
  NoDup (map TransactionItem.id
             (items (fst (run parseFloat toString evs initialState)))).
Proof.
  assert (G : forall evs st,
             NoDup (map TransactionItem.id (items st) ++ uuidsOf evs) ->
             NoDup (map TransactionItem.id
                        (items (fst (run parseFloat toString evs st))))).
  { clear evs. intros evs.
    induction evs as [|e evs IH]; intros st H.
    - simpl in *. now rewrite app_nil_r in H.
    - cbn [run fst]. apply IH. rewrite items_step.
      assert (Add : forall uuid p,
                 NoDup (map TransactionItem.id (items st)
                        ++ uuid :: uuidsOf evs) ->
                 NoDup (map TransactionItem.id
                            (items (addItem parseFloat uuid p st))
                        ++ uuidsOf evs)).
      { intros uuid p Hn.
        destruct (absent_dec (Product.id p) (items st)) as [A|A].
        - rewrite (addItem_absent parseFloat uuid p st A). simpl.
          now rewrite map_app, <- app_assoc.
        - rewrite (addItem_present parseFloat uuid p st A). simpl.
          rewrite ids_increment. now apply NoDup_remove_1 in Hn. }
      destruct e
        as [v|key| |uuid [p|]|cs v|v|v|v|v| |v|uuid p|item|v| |data| | | ];
        try exact H.
      + now apply Add.
      + now apply Add.
      + simpl. now apply NoDup_app_filter.
      + simpl in *. now apply NoDup_app_r in H. }
  intros H. apply G. exact H.
Qed.

Lemma X2_line_ids_distinct_witness :
  NoDup (map TransactionItem.id
             (items (fst (run Sample.parseFloat Sample.toString
                              [ProductClick (lit "a") Sample.apple;
                               ScannedProductChange (lit "b")
                                                    (Some Sample.pear);
                               ProductClick (lit "c") Sample.apple]
                              initialState)))).
Proof.
  apply X2_line_ids_distinct.
  simpl. repeat constructor; simpl; intuition discriminate.
Defined.

(** X3.  After every run of events from the initial state each line's total
    agrees with its quantity and price: it is quantity x price, or, on a
    line of quantity 1, the price itself. *)
Theorem X3_line_totals_consistent
        (parseFloat : jsstring -> float) (toString : float -> jsstring)
        (evs : list Event) :
  Forall lineOk (items (fst (run parseFloat toString evs initialState))).
Proof.
  apply (run_invariant parseFloat toString
           (fun st => Forall lineOk (items st))).
  - intros st e. apply step_lineOk.
  - constructor.
Qed.

(** X4.  Adding one product [k + 1] times in a row to a list without a line
    for it leaves the list one line longer: the new line has the id drawn
    at the first add, the price read then, quantity [1 + 1 + ... + 1] and,
    from the second add on, total quantity x price. *)
Theorem X4_repeated_adds
        (parseFloat : jsstring -> float)
        (p : Product.t) (u : jsstring) (us : list jsstring) (st : State) :
  absent (Product.id p) (items st) ->
  items (runOps parseFloat (map (fun x => OpAdd x p) (u :: us)) st)
  = items st
    ++ [ {| TransactionItem.id := u;
            TransactionItem.transactionId := [];
            TransactionItem.productId := Product.id p;
            TransactionItem.productName := Product.name p;
            TransactionItem.quantity := countUp (List.length us);
            TransactionItem.price := parseFloat (Product.price p);
            TransactionItem.total :=
              match us with
              | [] => parseFloat (Product.price p)
              | _ :: _ =>
                  (countUp (List.length us)
                   * parseFloat (Product.price p))%float
              end |} ].
Proof.
  intros A. induction us as [|x us IH] using rev_ind.
  - simpl. now rewrite (addItem_absent parseFloat u p st A).
  - change (u :: us ++ [x]) with ((u :: us) ++ [x]).
    rewrite map_app. unfold runOps in *. rewrite fold_left_app.
    remember (fold_left (applyOp parseFloat)
                        (map (fun x => OpAdd x p) (u :: us)) st)
      as st1 eqn:E1 in *.
    clear E1. cbn [map fold_left applyOp]. rewrite addItem_present.
    + simpl. rewrite IH, map_app, (increment_absent _ _ A). simpl.
      rewrite eqb_refl, length_app, Nat.add_comm. simpl.
      do 2 f_equal. destruct us; reflexivity.
    + rewrite IH. intros H.
      eapply H; [apply in_or_app; right; now left|reflexivity].
Qed.

Lemma X4_repeated_adds_witness :
  items (runOps Sample.parseFloat
           [OpAdd (lit "a") Sample.apple; OpAdd (lit "b") Sample.apple;
            OpAdd (lit "c") Sample.apple]
           (setItems [SampleText.pearLine] initialState))
  = [ SampleText.pearLine;
      {| TransactionItem.id := lit "a";
         TransactionItem.transactionId := [];
         TransactionItem.productId := lit "p-1";
         TransactionItem.productName := lit "apple";
         TransactionItem.quantity := 3;
         TransactionItem.price := 10;
         TransactionItem.total := 30 |} ].
Proof.
  apply (X4_repeated_adds Sample.parseFloat Sample.apple (lit "a")
           [lit "b"; lit "c"] (setItems [SampleText.pearLine] initialState)).
  intros item [E|[]]. subst item. discriminate.
Defined.

(** X5.  Adding a product that has no line yet raises the subtotal by the
    price read for it and leaves the discount as it is. *)
Theorem X5_subtotal_after_add
        (parseFloat : jsstring -> float)
        (uuid : jsstring) (p : Product.t) (st : State) :
  absent (Product.id p) (items st) ->
  let before := calculateTotals parseFloat st in
  let after := calculateTotals parseFloat (addItem parseFloat uuid p st) in
  Totals.subtotal after
  = (Totals.subtotal before + parseFloat (Product.price p))%float
  /\ Totals.discount after = Totals.discount before
  /\ Totals.total after
     = (Totals.subtotal before + parseFloat (Product.price p)
        - Totals.discount before)%float.
Proof.
  intros A. rewrite (addItem_absent parseFloat uuid p st A).
  unfold calculateTotals. simpl. rewrite fold_left_app. simpl.
  repeat split.
Qed.

Lemma X5_subtotal_after_add_witness :
  let st := setItems Sample.twoLines initialState in
  let after :=
    calculateTotals Sample.parseFloat
      (addItem Sample.parseFloat (lit "c")
               (nth 2 SampleText.catalogue Sample.apple) st) in
  Totals.subtotal after = 32%float
  /\ Totals.discount after = 0%float
  /\ Totals.total after = 32%float.
Proof.
  apply (X5_subtotal_after_add Sample.parseFloat (lit "c")
           (nth 2 SampleText.catalogue Sample.apple)
           (setItems Sample.twoLines initialState)).
  intros item [E|[E|[]]]; subst item; discriminate.
Defined.

(** X6.  After every run of events from the initial state the scanned code,
    which is the key the barcode lookup runs for, has no whitespace at
    either end: trimming it changes nothing. *)
Theorem X6_lookup_key_trimmed
        (parseFloat : jsstring -> float) (toString : float -> jsstring)
        (evs : list Event) :
  let key := lastScannedBarcode (fst (run parseFloat toString evs initialState)) in
  trim key = key
  /\ (forall c r, key = c :: r -> is_white_space c = false)
  /\ (forall c r, key = r ++ [c] -> is_white_space c = false).
Proof.
  intros key.
  assert (T : trim key = key).
  { subst key.
    apply (run_invariant parseFloat toString
             (fun st => trim (lastScannedBarcode st) = lastScannedBarcode st)).
    - intros st e. apply step_trimmed.
    - reflexivity. }
  split; [exact T|].
  destruct (trim_split key) as [pre [post [_ [_ [_ [Hh Hl]]]]]].
  rewrite T in Hh, Hl. split; assumption.
Qed.



(** X8.  When the barcode lookup resolves to a product that already has a
    line, no line is added or moved: the lines keep their ids and product
    ids, a line of that product gets quantity + 1, the scan input and the
    scanned code are cleared, and the not-found notice is not rendered
    whatever the query reports next. *)
Theorem X8_scan_of_listed_product
        (parseFloat : jsstring -> float)
        (q : BarcodeQuery) (uuid : jsstring) (P : Product.t) (st : State) :
  ~ absent (Product.id P) (items st) ->
  let st' := autoAdd parseFloat uuid (Some P) st in
  map TransactionItem.id (items st') = map TransactionItem.id (items st)
  /\ map TransactionItem.productId (items st')
     = map TransactionItem.productId (items st)
  /\ (forall i line,
         nth_error (items st) i = Some line ->
         TransactionItem.productId line = Product.id P ->
         exists line',
           nth_error (items st') i = Some line'
           /\ TransactionItem.quantity line'
              = (TransactionItem.quantity line + 1)%float)
  /\ barcodeInput st' = []
  /\ lastScannedBarcode st' = []
  /\ barcodeLookup st' = None
  /\ notFoundNotice q st' = false.
Proof.
  intros A st'. subst st'. unfold autoAdd.
  rewrite (addItem_present parseFloat uuid P st A). simpl.
  rewrite ids_increment, pids_increment. repeat split.
  intros i line Hn Hp. exists (oneMore line).
  rewrite nth_error_map, Hn. simpl.
  apply eqb_eq in Hp. rewrite Hp. split; reflexivity.
Qed.

Lemma X8_scan_of_listed_product_witness :
  let q := {| data := None; isLoading := false |} in
  let st := setLastScannedBarcode (lit "869")
              (setItems Sample.twoLines initialState) in
  let st' := autoAdd Sample.parseFloat (lit "z") (Some Sample.pear) st in
  map TransactionItem.id (items st') = [lit "a"; lit "b"]
  /\ nth_error (map TransactionItem.quantity (items st')) 1 = Some 2%float
  /\ lastScannedBarcode st' = []
  /\ notFoundNotice q st' = false.
Proof.
  pose (q := {| data := None; isLoading := false |}).
  destruct (X8_scan_of_listed_product Sample.parseFloat q (lit "z")
              Sample.pear
              (setLastScannedBarcode (lit "869")
                 (setItems Sample.twoLines initialState)))
    as [H1 [_ [_ [_ [H5 [_ H7]]]]]].
  - intros H. apply (H SampleText.pearLine); [|reflexivity].
    right. now left.
  - split; [exact H1|split; [reflexivity|split; [exact H5|exact H7]]].
Defined.



Section Requests.

Variable parseFloat : jsstring -> float.
Variable toString : float -> jsstring.

Lemma onSubmit_mutate (data : InsertTransaction.t) (st : State)
      (p : Payload) :
  In (Mutate p) (snd (onSubmit parseFloat toString data st)) ->
  payload_items p = items st
  /\ items st <> []
  /\ InsertTransaction.tax (transaction p) = lit "0"
  /\ truthy_opt (InsertTransaction.customerName (transaction p)) = true.
Proof.
  unfold onSubmit. destruct (items st) as [|x l] eqn:Ei; simpl.
  - intros [H|[]]. discriminate H.
  - intros [H|[]]. injection H as <-. simpl.
    split; [reflexivity|split; [discriminate|split; [reflexivity|]]].
    unfold or_opt at 1.
    destruct (truthy_opt (or_opt _ _)) eqn:T; [exact T|reflexivity].
Qed.

Lemma step_mutate (st : State) (e : Event) (p : Payload) :
  In (Mutate p) (snd (step parseFloat toString st e)) ->
  exists data,
    e = Submit data
    /\ In (Mutate p) (snd (onSubmit parseFloat toString data st)).
Proof.
  destruct e as [v|key| |uuid sp|cs v|v|v|v|v| |v|uuid q|item|v| |data| | | ];
    simpl; try (intros []; fail).
  - intros [H|[]]. discriminate H.
  - intros H. now exists data.
  - intros [H|[H|[H|[H|[]]]]]; discriminate H.
  - intros [H|[]]. discriminate H.
  - intros [H|[]]. discriminate H.
Qed.

Lemma step_mutate_count (st : State) (e : Event) :
  List.length (filter isMutate (snd (step parseFloat toString st e)))
  <= if isSubmit e then 1 else 0.
Proof.
  destruct e as [v|key| |uuid sp|cs v|v|v|v|v| |v|uuid q|item|v| |data| | | ];
    simpl; try lia.
  unfold onSubmit.
  destruct (Nat.eqb (List.length (items st)) 0); simpl; lia.
Qed.

End Requests.

(** X10.  Every create request issued in a run of events from the initial
    state carries at least one line, at most one line per product, lines
    whose totals agree with quantity and price, tax "0" and a customer name
    that is not empty. *)
Theorem X10_requests_well_formed
        (parseFloat : jsstring -> float) (toString : float -> jsstring)
        (evs : list Event) (p : Payload) :
  In (Mutate p) (snd (run parseFloat toString evs initialState)) ->
  payload_items p <> []
  /\ NoDup (map TransactionItem.productId (payload_items p))
  /\ Forall lineOk (payload_items p)
  /\ InsertTransaction.tax (transaction p) = lit "0"
  /\ truthy_opt (InsertTransaction.customerName (transaction p)) = true.
Proof.
  assert (G : forall evs st,
             NoDup (map TransactionItem.productId (items st)) ->
             Forall lineOk (items st) ->
             In (Mutate p) (snd (run parseFloat toString evs st)) ->
             payload_items p <> []
             /\ NoDup (map TransactionItem.productId (payload_items p))
             /\ Forall lineOk (payload_items p)
             /\ InsertTransaction.tax (transaction p) = lit "0"
             /\ truthy_opt (InsertTransaction.customerName (transaction p))
                = true).
  { clear evs. intros evs.
    induction evs as [|e evs IH]; intros st Hn Hl Hin; [destruct Hin|].
    cbn [run snd] in Hin. apply in_app_iff in Hin as [Hin|Hin].
    - apply step_mutate in Hin as [data [_ Hin]].
      apply onSubmit_mutate in Hin as [Ei [Hne [Ht Hc]]].
      rewrite Ei. now repeat split.
    - apply (IH (fst (step parseFloat toString st e))); [| |exact Hin].
      + now apply step_pids_NoDup.
      + now apply step_lineOk. }
  apply G; constructor.
Qed.

Lemma X10_requests_well_formed_witness :
  exists p,
    In (Mutate p)
       (snd (run Sample.parseFloat Sample.toString
                 [ProductClick (lit "a") Sample.apple;
                  ProductClick (lit "b") Sample.apple;
                  Submit Sample.veliData]
                 initialState))
    /\ payload_items p <> []
    /\ InsertTransaction.tax (transaction p) = lit "0"
    /\ InsertTransaction.customerName (transaction p) = Some (lit "Veli").
Proof.
  eexists. split; [left; reflexivity|].
  destruct (X10_requests_well_formed Sample.parseFloat Sample.toString
              [ProductClick (lit "a") Sample.apple;
               ProductClick (lit "b") Sample.apple;
               Submit Sample.veliData]
              _ (or_introl eq_refl))
    as [H1 [_ [_ [H4 _]]]].
  split; [exact H1|split; [exact H4|reflexivity]].
Defined.

(** X11.  A run of events issues at most one create request per submit
    event, and a submit that follows a success, with nothing added in
    between, issues none: it only shows the validation error. *)
Theorem X11_one_request_per_submit
        (parseFloat : jsstring -> float) (toString : float -> jsstring) :
  (forall (evs : list Event) (st : State),
      List.length (filter isMutate (snd (run parseFloat toString evs st)))
      <= List.length (filter isSubmit evs))
  /\ (forall (data : InsertTransaction.t) (st : State),
         snd (run parseFloat toString [MutationSuccess; Submit data] st)
         = snd (onSuccess st)
           ++ [Toast txt_error txt_need_one_product destructive]).
Proof.
  split.
  - intros evs. induction evs as [|e evs IH]; intros st; [simpl; lia|].
    cbn [run snd]. rewrite filter_app, length_app.
    pose proof (step_mutate_count parseFloat toString st e) as H1.
    pose proof (IH (fst (step parseFloat toString st e))) as H2.
    simpl. destruct (isSubmit e); simpl; lia.
  - intros data st. reflexivity.
Qed.



(** X13.  The symbol printed next to the amounts is "$" for the currency
    code "USD" and the lira sign for every other string.  Picking a currency
    changes the symbol shown and neither the item list nor the totals. *)
Theorem X13_currency_is_presentation_only
        (parseFloat : jsstring -> float)
        (code : jsstring) (v : Currency) (st : State) :
  (getCurrencySymbol code = lit "$" <-> code = lit "USD")
  /\ (code <> lit "USD" -> getCurrencySymbol code = [8378%N])
  /\ shownSymbol (setCurrency v st)
     = match v with
       | USD => lit "$"
       | TRY => [8378%N]
       end
  /\ items (setCurrency v st) = items st
  /\ calculateTotals parseFloat (setCurrency v st)
     = calculateTotals parseFloat st.
Proof.
  unfold getCurrencySymbol. split; [|split; [|split; [|split]]].
  - destruct (eqb code (lit "USD")) eqn:E.
    + apply eqb_eq in E. now split.
    + apply eqb_neq in E. split; [discriminate|contradiction].
  - intros H. apply eqb_neq in H. now rewrite H.
  - now destruct v.
  - reflexivity.
  - reflexivity.
Qed.

Lemma X13_currency_is_presentation_only_witness :
  getCurrencySymbol (lit "usd") = [8378%N]
  /\ shownSymbol (setCurrency USD initialState) = lit "$".
Proof.
  destruct (X13_currency_is_presentation_only Sample.parseFloat (lit "usd")
              USD initialState)
    as [_ [H2 [H3 _]]].
  split; [apply H2; discriminate|exact H3].
Defined.

(** X14.  Lines stay in the order they were added in: an event other than a
    click on a delete button or a successful submission drops and moves no
    line, it keeps the ids of the lines and appends at most one. *)
Theorem X14_lines_kept_in_order
        (parseFloat : jsstring -> float) (toString : float -> jsstring)
        (st : State) (e : Event) :
  (forall item, e <> RemoveClick item) ->
  e <> MutationSuccess ->
  exists tail,
    map TransactionItem.id (items (fst (step parseFloat toString st e)))
    = map TransactionItem.id (items st) ++ tail
    /\ List.length tail <= 1.
Proof.
  intros Hr Hs. rewrite items_step.
  assert (Add : forall uuid p,
             exists tail,
               map TransactionItem.id (items (addItem parseFloat uuid p st))
               = map TransactionItem.id (items st) ++ tail
               /\ List.length tail <= 1).
  { intros uuid p.
    destruct (absent_dec (Product.id p) (items st)) as [A|A].
    - rewrite (addItem_absent parseFloat uuid p st A). simpl.
      exists [uuid]. rewrite map_app. split; [reflexivity|simpl; lia].
    - rewrite (addItem_present parseFloat uuid p st A). simpl.
      exists []. rewrite ids_increment, app_nil_r.
      split; [reflexivity|simpl; lia]. }
  destruct e as [v|key| |uuid [p|]|cs v|v|v|v|v| |v|uuid p|item|v| |data| | | ];
    try (exists []; rewrite app_nil_r; split; [reflexivity|simpl; lia]);
    try apply Add.
  - exfalso. now apply (Hr item).
  - exfalso. now apply Hs.
Qed.

Lemma X14_lines_kept_in_order_witness :
  exists tail,
    map TransactionItem.id
        (items (fst (step Sample.parseFloat Sample.toString
                          (setItems Sample.twoLines initialState)
                          (ProductClick (lit "c")
                             (nth 2 SampleText.catalogue Sample.apple)))))
    = [lit "a"; lit "b"] ++ tail
    /\ List.length tail <= 1.
Proof.
  apply (X14_lines_kept_in_order Sample.parseFloat Sample.toString
           (setItems Sample.twoLines initialState)
           (ProductClick (lit "c") (nth 2 SampleText.catalogue Sample.apple))).
  - discriminate.
  - discriminate.
Defined.

(** X15.  In every run of events the form asks to be closed once per cancel
    click, once per dismissal of the dialog and once per successful
    submission, and at no other time, and the
    cached views are invalidated twice per successful submission and at no
    other time: a failed or rejected submission does neither. *)
Theorem X15_close_and_invalidate_accounting
        (parseFloat : jsstring -> float) (toString : float -> jsstring)
        (evs : list Event) (st : State) :
  List.length (filter isOnClose (snd (run parseFloat toString evs st)))
  = List.length (filter closes evs)
  /\ List.length (filter isInvalidate (snd (run parseFloat toString evs st)))
     = 2 * List.length (filter isSuccess evs).
Proof.
  revert st. induction evs as [|e evs IH]; intros st; [split; reflexivity|].
  cbn [run snd]. rewrite !filter_app, !length_app.
  destruct (IH (fst (step parseFloat toString st e))) as [H1 H2].
  rewrite H1, H2.
  assert (S1 : List.length
                 (filter isOnClose (snd (step parseFloat toString st e)))
               = if closes e then 1 else 0).
  { destruct e; try reflexivity. simpl. unfold onSubmit.
    now destruct (Nat.eqb (List.length (items st)) 0). }
  assert (S2 : List.length
                 (filter isInvalidate (snd (step parseFloat toString st e)))
               = if isSuccess e then 2 else 0).
  { destruct e; try reflexivity. simpl. unfold onSubmit.
    now destruct (Nat.eqb (List.length (items st)) 0). }
  rewrite S1, S2. simpl.
  destruct (closes e), (isSuccess e); simpl; lia.
Qed.
